(** * Operation layer of the MongoDB Node.js driver: retry predicates,
      admin command handlers and the write-concern helper

    A shallow embedding of

    - [src/operations/update.ts]  ([UpdateOperation], [UpdateOneOperation],
      [UpdateManyOperation]),
    - [src/operations/delete.ts]  ([DeleteOperation], [DeleteOneOperation],
      [DeleteManyOperation]),
    - the profiling-level operation ([SetProfilingLevelOperation]),
    - [lib/admin.js]              ([serverStatus], [writeConcern],
      [validateCollection], [replSetGetStatus]),

    together with the properties of these functions that the specification
    states.  JavaScript values are a small inductive type, objects are finite
    maps from property names to values, and a function that talks to the
    server returns the trace of what it did: the commands it issued and the
    callback invocations it made, in order. *)

From Stdlib Require Import QArith Bool.
From stdpp Require Import gmap strings list fin_maps.

#[local] Set Warnings "-register-all".
#[local] Open Scope string_scope.

(** ** JavaScript values *)

(** A JavaScript number is NaN, an infinity, or a finite value.  Every finite
    double is a rational, and the code below only compares numbers with the
    literals 0 and 1, so finite numbers are rationals here; the two zeros are
    not told apart (no operation of the modelled code distinguishes them). *)
Inductive number :=
| NaN
| Infinity (negative : bool)
| Finite (q : Q).

(** The values that option bags, sub-operation descriptors and server
    responses are made of.  [JError name message] is an error object built by
    [new Error(message)] or [new TypeError(message)]; [JObject] is a plain
    object, its own properties a finite map.  Functions, symbols and bigints do
    not occur in these documents and are left out. *)
Inductive JSValue :=
| JUndefined
| JNull
| JBool (b : bool)
| JNumber (n : number)
| JString (s : string)
| JError (name message : string)
| JObject (props : gmap string JSValue).

(** A document: the own properties of a plain object. *)
Abbreviation Document := (gmap string JSValue).

Definition num (z : Z) : JSValue := JNumber (Finite (inject_Z z)).

(** [o.k] on an object: a missing property reads as [undefined]. *)
Definition get (o : Document) (k : string) : JSValue :=
  default JUndefined (o !! k).

(** [v.k] on a value that is known not to be [undefined] or [null]: the
    primitives have none of the property names read by the modelled code. *)
Definition member (v : JSValue) (k : string) : JSValue :=
  match v with
  | JObject o => get o k
  | _ => JUndefined
  end.

(** [typeof v] *)
Definition typeof (v : JSValue) : string :=
  match v with
  | JUndefined => "undefined"
  | JNull => "object"
  | JBool _ => "boolean"
  | JNumber _ => "number"
  | JString _ => "string"
  | JError _ _ => "object"
  | JObject _ => "object"
  end.

(** [v == null] (and so [v != null] is its negation): true of [null] and
    [undefined] only. *)
Definition loose_eq_null (v : JSValue) : bool :=
  match v with
  | JUndefined | JNull => true
  | _ => false
  end.

(** [v === b] for a boolean literal [b]. *)
Definition strict_eq_bool (v : JSValue) (b : bool) : bool :=
  match v with
  | JBool b' => eqb b' b
  | _ => false
  end.

(** [v === s] for a string literal [s]. *)
Definition strict_eq_string (v : JSValue) (s : string) : bool :=
  match v with
  | JString s' => String.eqb s' s
  | _ => false
  end.

(** [x === y] on numbers: NaN equals nothing, not even itself. *)
Definition number_eq (x y : number) : bool :=
  match x, y with
  | Finite p, Finite q => Qeq_bool p q
  | Infinity a, Infinity b => eqb a b
  | _, _ => false
  end.

(** [v === n] for a number literal [n]. *)
Definition strict_eq_number (v : JSValue) (n : number) : bool :=
  match v with
  | JNumber m => number_eq m n
  | _ => false
  end.

(** [x < y] on numbers; false as soon as one side is NaN. *)
Definition number_lt (x y : number) : bool :=
  match x, y with
  | NaN, _ | _, NaN => false
  | Infinity true, Infinity true => false
  | Infinity true, _ => true
  | _, Infinity true => false
  | Infinity false, _ => false
  | Finite _, Infinity false => true
  | Finite p, Finite q => negb (Qle_bool q p)
  end.

(** ToBoolean: the test of [if (v)], [!v] and [v || w]. *)
Definition ToBoolean (v : JSValue) : bool :=
  match v with
  | JUndefined | JNull => false
  | JBool b => b
  | JNumber NaN => false
  | JNumber (Infinity _) => true
  | JNumber (Finite q) => negb (Qeq_bool q 0)
  | JString s => negb (String.eqb s "")
  | JError _ _ | JObject _ => true
  end.

(** [e.toString()] of an error object. *)
Definition error_toString (name message : string) : string :=
  if String.eqb message "" then name else name ++ ": " ++ message.

(** The conversions of the host language whose result depends on number
    syntax or on methods of the object converted.  The modelled code reaches
    them only through [op.limit > 0] and through the concatenation that
    builds an error message; no property below depends on what they
    return. *)
Class HostConversions := {
  StringToNumber : string -> number;
  NumberToString : number -> string;
  ObjectToNumber : Document -> number;
  ObjectToString : Document -> string
}.

Section Conversions.
Context `{HostConversions}.

(** ToNumber *)
Definition ToNumber (v : JSValue) : number :=
  match v with
  | JUndefined => NaN
  | JNull => Finite 0
  | JBool true => Finite 1
  | JBool false => Finite 0
  | JNumber n => n
  | JString s => StringToNumber s
  | JError name message => StringToNumber (error_toString name message)
  | JObject o => ObjectToNumber o
  end.

(** ToString *)
Definition ToString (v : JSValue) : string :=
  match v with
  | JUndefined => "undefined"
  | JNull => "null"
  | JBool true => "true"
  | JBool false => "false"
  | JNumber n => NumberToString n
  | JString s => s
  | JError name message => error_toString name message
  | JObject o => ObjectToString o
  end.

(** [v > n] for a number literal [n]: the right operand is not a string, so
    both sides are compared as numbers. *)
Definition greater_than (v : JSValue) (n : number) : bool :=
  number_lt n (ToNumber v).

(** [s + v] for a string literal [s]. *)
Definition concat (s : string) (v : JSValue) : string :=
  s ++ ToString v.
End Conversions.

(** ** Results of running code *)

(** A constructor either returns the new object or throws. *)
Inductive Completion (A : Type) :=
| Normal (a : A)
| Throw (e : JSValue).
Arguments Normal {A} a.
Arguments Throw {A} e.

(** What a function that is handed a server and a callback does, in order:
    it issues commands and it invokes the callback with an argument list. *)
Inductive Event :=
| Issued (command : Document)
| Called (args : list JSValue).

(** The collaborator that runs a command: it answers a command with the pair
    [(err, doc)] that it passes to the completion handler.  The response
    document is an object; when [err] is set the handlers do not read it. *)
Definition Server := Document -> JSValue * Document.

(** Modelled from the spec: [CommandOperation] (./command is not among the
    sources), the base class of the single-target operations, "bound to
    exactly one collection-or-database handle ... and an options bag"; its
    constructor [super(parent, options)] records both. *)
Record CommandOperation := {
  parent : JSValue;
  options : JSValue
}.

(** Modelled from the spec: [CommandOperation.executeCommand(server, cmd,
    callback)] (./command is not among the sources) "issues" the command:
    the server runs it and its answer [(err, doc)] goes to the handler. *)
Definition executeCommand (server : Server) (cmd : Document)
    (handler : JSValue -> Document -> list Event) : list Event :=
  Issued cmd :: (let '(err, doc) := server cmd in handler err doc).

(** [isObject] of Node's [util] module:
    [arg !== null && typeof arg === 'object'] *)
Definition isObject (arg : JSValue) : bool :=
  negb (match arg with JNull => true | _ => false end)
  && String.eqb (typeof arg) "object".

(** The calls [updateDocuments(server, coll, filter, update, options, ...)]
    and [removeDocuments(server, coll, filter, options, ...)] that the
    single-target operations end with; ./common_functions is not among the
    sources, so [execute] is modelled up to the call it makes. *)
Record UpdateCall := {
  update_coll : JSValue;
  update_filter : JSValue;
  update_document : JSValue;
  update_options : Document
}.

Record RemoveCall := {
  remove_coll : JSValue;
  remove_filter : JSValue;
  remove_options : Document
}.

(** ** [src/operations/update.ts] *)

Module UpdateOperation.

(** [class UpdateOperation extends OperationBase]; the base class keeps the
    options bag. *)
Record t := {
  namespace : JSValue;
  operations : list Document;
  options : JSValue
}.

(** [constructor(ns, ops, options)] *)
Definition new (ns : JSValue) (ops : list Document) (options : JSValue) : t :=
  {| namespace := ns; operations := ops; options := options |}.

(** [get canRetryWrite()]:
    [this.operations.every(op => op.multi == null || op.multi === false)] *)
Definition canRetryWrite (this : t) : bool :=
  forallb
    (fun op => loose_eq_null (get op "multi")
               || strict_eq_bool (get op "multi") false)
    (operations this).

End UpdateOperation.

Module UpdateOneOperation.

(** [class UpdateOneOperation extends CommandOperation] *)
Record t := {
  base : CommandOperation;
  collection : JSValue;
  filter : JSValue;
  update : JSValue
}.

Section WithUtils.
(** [hasAtomicOperators] of ../utils, which is not among the sources. *)
Variable hasAtomicOperators : JSValue -> bool.

(** [constructor(collection, filter, update, options)]: throws a TypeError
    when [!hasAtomicOperators(update)]. *)
Definition new (collection filter update options : JSValue) : Completion t :=
  let base := {| parent := collection; options := options |} in
  if negb (hasAtomicOperators update)
  then Throw (JError "TypeError" "Update document requires atomic operators")
  else Normal {| base := base; collection := collection;
                 filter := filter; update := update |}.
End WithUtils.

(** [execute(server, callback)]: [options.multi = false], then the call of
    [updateDocuments].  [None]: [this.options] is not a plain object, and
    the assignment does not go through ([undefined], [null] and the
    primitives make it throw). *)
Definition execute (this : t) : option UpdateCall :=
  match options (base this) with
  | JObject options =>
      let options := <["multi" := JBool false]> options in
      Some {| update_coll := collection this; update_filter := filter this;
              update_document := update this; update_options := options |}
  | _ => None
  end.

End UpdateOneOperation.

Module UpdateManyOperation.

(** [class UpdateManyOperation extends CommandOperation] *)
Record t := {
  base : CommandOperation;
  collection : JSValue;
  filter : JSValue;
  update : JSValue
}.

(** [constructor(collection, filter, update, options)]: the call of [super]
    and three assignments. *)
Definition new (collection filter update options : JSValue) : Completion t :=
  let base := {| parent := collection; options := options |} in
  Normal {| base := base; collection := collection;
            filter := filter; update := update |}.

(** [execute(server, callback)]: [options.multi = true], then the call of
    [updateDocuments]; [None] as for [UpdateOneOperation]. *)
Definition execute (this : t) : option UpdateCall :=
  match options (base this) with
  | JObject options =>
      let options := <["multi" := JBool true]> options in
      Some {| update_coll := collection this; update_filter := filter this;
              update_document := update this; update_options := options |}
  | _ => None
  end.

End UpdateManyOperation.

(** ** [src/operations/delete.ts] *)

Module DeleteOperation.

(** [class DeleteOperation extends OperationBase] *)
Record t := {
  namespace : string;
  operations : list Document;
  options : JSValue
}.

(** [constructor(ns, ops, options)] *)
Definition new (ns : string) (ops : list Document) (options : JSValue) : t :=
  {| namespace := ns; operations := ops; options := options |}.

Section WithHost.
Context `{HostConversions}.

(** [get canRetryWrite()]:
    [this.operations.every(op =>
       (typeof op.limit !== 'undefined' ? op.limit > 0 : true))] *)
Definition canRetryWrite (this : t) : bool :=
  forallb
    (fun op =>
       if negb (String.eqb (typeof (get op "limit")) "undefined")
       then greater_than (get op "limit") (Finite 0)
       else true)
    (operations this).
End WithHost.

End DeleteOperation.

Module DeleteOneOperation.

(** [class DeleteOneOperation extends CommandOperation] *)
Record t := {
  base : CommandOperation;
  collection : JSValue;
  filter : JSValue
}.

(** [constructor(collection, filter, options)]: the call of [super] and two
    assignments. *)
Definition new (collection filter options : JSValue) : Completion t :=
  let base := {| parent := collection; options := options |} in
  Normal {| base := base; collection := collection; filter := filter |}.

(** [execute(server, callback)]: [options.single = true], then the call of
    [removeDocuments]; [None] when [this.options] is not a plain object. *)
Definition execute (this : t) : option RemoveCall :=
  match options (base this) with
  | JObject options =>
      let options := <["single" := JBool true]> options in
      Some {| remove_coll := collection this; remove_filter := filter this;
              remove_options := options |}
  | _ => None
  end.

End DeleteOneOperation.

Module DeleteManyOperation.

(** [class DeleteManyOperation extends CommandOperation] *)
Record t := {
  base : CommandOperation;
  collection : JSValue;
  filter : JSValue
}.

(** [constructor(collection, filter, options)]: throws a TypeError when
    [!isObject(filter)]. *)
Definition new (collection filter options : JSValue) : Completion t :=
  let base := {| parent := collection; options := options |} in
  if negb (isObject filter)
  then Throw (JError "TypeError" "filter is a required parameter")
  else Normal {| base := base; collection := collection; filter := filter |}.

(** [execute(server, callback)]:
    [if (typeof options.single !== 'boolean') options.single = false], then
    the call of [removeDocuments]; [None] when [this.options] is not a plain
    object. *)
Definition execute (this : t) : option RemoveCall :=
  match options (base this) with
  | JObject options =>
      let options :=
        if negb (String.eqb (typeof (get options "single")) "boolean")
        then <["single" := JBool false]> options
        else options in
      Some {| remove_coll := collection this; remove_filter := filter this;
              remove_options := options |}
  | _ => None
  end.

End DeleteManyOperation.

(** ** The profiling-level operation *)

Module SetProfilingLevelOperation.

(** [const levelValues = new Set(['off', 'slow_only', 'all'])] *)
Definition levelValues : gset string := {[ "off"; "slow_only"; "all" ]}.

(** [levelValues.has(v)]: only a string can be a member. *)
Definition levelValues_has (v : JSValue) : bool :=
  match v with
  | JString s => bool_decide (s ∈ levelValues)
  | _ => false
  end.

(** [class SetProfilingLevelOperation extends CommandOperation] *)
Record t := {
  base : CommandOperation;
  level : JSValue;
  profile : JSValue
}.

(** [constructor(db, level, options)] *)
Definition new (db level options : JSValue) : t :=
  let profile := num 0 in
  let profile :=
    if strict_eq_string level "off" then num 0
    else if strict_eq_string level "slow_only" then num 1
    else if strict_eq_string level "all" then num 2
    else profile in
  let base := {| parent := db; options := options |} in
  {| base := base; level := level; profile := profile |}.

Section WithHost.
Context `{HostConversions}.

(** [execute(server, callback)] *)
Definition execute (this : t) (server : Server) : list Event :=
  let level := level this in
  if negb (levelValues_has level)
  then [Called [JError "Error"
                  (concat "Error: illegal profiling level value " level)]]
  else
    executeCommand server {[ "profile" := profile this ]}
      (fun err doc =>
         if loose_eq_null err && strict_eq_number (get doc "ok") (Finite 1)
         then [Called [JUndefined; level]]
         else if negb (loose_eq_null err)
              then [Called [err; JNull]]
              else [Called [JError "Error" "Error with profile command";
                            JNull]]).
End WithHost.

End SetProfilingLevelOperation.

(** ** The aspects declared by the operation types *)

Module Aspects.

(** [Aspect] of ./operation *)
Inductive Aspect := RETRYABLE | WRITE_OPERATION | EXECUTE_WITH_SELECTION.

(** The operation classes of the three operation files. *)
Inductive OperationType :=
| Update | UpdateOne | UpdateMany
| Delete | DeleteOne | DeleteMany
| SetProfilingLevel.

(** Modelled from the spec: [defineAspects(operationType, aspectList)]
    (./operation is not among the sources) "freezes an association from an
    operation type to a set of aspects"; the table below is the seven calls
    of [defineAspects] that close the operation files. *)
Definition aspects (operation : OperationType) : list Aspect :=
  match operation with
  | Update => [RETRYABLE; WRITE_OPERATION; EXECUTE_WITH_SELECTION]
  | UpdateOne => [RETRYABLE; WRITE_OPERATION; EXECUTE_WITH_SELECTION]
  | UpdateMany => [WRITE_OPERATION; EXECUTE_WITH_SELECTION]
  | Delete => [RETRYABLE; WRITE_OPERATION; EXECUTE_WITH_SELECTION]
  | DeleteOne => [RETRYABLE; WRITE_OPERATION; EXECUTE_WITH_SELECTION]
  | DeleteMany => [WRITE_OPERATION; EXECUTE_WITH_SELECTION]
  | SetProfilingLevel => [EXECUTE_WITH_SELECTION]
  end.

Definition Aspect_eqb (a b : Aspect) : bool :=
  match a, b with
  | RETRYABLE, RETRYABLE => true
  | WRITE_OPERATION, WRITE_OPERATION => true
  | EXECUTE_WITH_SELECTION, EXECUTE_WITH_SELECTION => true
  | _, _ => false
  end.

(** Modelled from the spec: [hasAspect(operationType, aspect)] "is a pure
    lookup". *)
Definition hasAspect (operation : OperationType) (aspect : Aspect) : bool :=
  existsb (Aspect_eqb aspect) (aspects operation).

End Aspects.

(** ** Arguments of the admin methods *)

(** What stands in an argument position of a method call: a document value,
    or a function such as the completion callback. *)
Inductive Argument :=
| Value (v : JSValue)
| Function (name : string).

(** [typeof a === 'function'] *)
Definition is_function (a : Argument) : bool :=
  match a with
  | Function _ => true
  | Value _ => false
  end.

(** The test of [if (a)] and [a || b] on an argument. *)
Definition truthy (a : Argument) : bool :=
  match a with
  | Function _ => true
  | Value v => ToBoolean v
  end.

(** The named parameter in position [i]: [undefined] when the call has fewer
    arguments. *)
Definition parameter (arguments : list Argument) (i : nat) : Argument :=
  default (Value JUndefined) (arguments !! i).

(** [callback = typeof args[args.length - 1] === 'function' ? args.pop()
    : undefined]: what is left in [args], and [callback]. *)
Definition pop_callback (args : list Argument) : list Argument * Argument :=
  match last args with
  | Some (Function name) => (removelast args, Function name)
  | _ => (args, Value JUndefined)
  end.

(** [options = args.length ? args.shift() : {}] *)
Definition shift_options (args : list Argument) : Argument :=
  match args with
  | first :: _ => first
  | [] => Value (JObject ∅)
  end.

(** [options = options || {}] *)
Definition or_empty (options : Argument) : Argument :=
  if truthy options then options else Value (JObject ∅).

(** ** [lib/admin.js] *)

Module Admin.

(** Modelled from the spec: [shallowClone] (./utils is not among the
    sources) returns "a shallow copy of [options]": a new object with the
    same own properties, which for a property map is the map itself. *)
Definition shallowClone (options : Document) : Document := options.

(** [var writeConcern = function(options, db)]; [db] is the Db object the
    Admin instance was created with. *)
Definition writeConcern (options db : Document) : Document :=
  let options := shallowClone options in
  if ToBoolean (get options "w") || ToBoolean (get options "wtimeout")
     || ToBoolean (get options "j") || ToBoolean (get options "fsync")
  then options
  else
    let options :=
      if ToBoolean (get db "writeConcern") then
        let options :=
          if ToBoolean (get options "w")
          then <["w" := member (get db "writeConcern") "w"]> options
          else options in
        let options :=
          if ToBoolean (get options "wtimeout")
          then <["wtimeout" := member (get db "writeConcern") "wtimeout"]>
                 options
          else options in
        let options :=
          if ToBoolean (get options "j")
          then <["j" := member (get db "writeConcern") "j"]> options
          else options in
        let options :=
          if ToBoolean (get options "fsync")
          then <["fsync" := member (get db "writeConcern") "fsync"]> options
          else options in
        options
      else options in
    options.

(** [s.match(/exception|corrupt/) != null]: some substring of [s] is one of
    the two words. *)
Fixpoint includes (word s : string) : bool :=
  String.prefix word s
  || match s with
     | EmptyString => false
     | String _ rest => includes word rest
     end.

Definition matches_exception_or_corrupt (s : string) : bool :=
  includes "exception" s || includes "corrupt" s.

(** [v.constructor !== String] for a [v] that is not [undefined] or [null]:
    among the modelled values the strings are the ones built by [String]. *)
Definition constructor_is_not_String (v : JSValue) : bool :=
  match v with
  | JString _ => false
  | _ => true
  end.

(** [v.match(/exception|corrupt/) != null], reached for strings only. *)
Definition match_not_null (v : JSValue) : bool :=
  match v with
  | JString s => matches_exception_or_corrupt s
  | _ => false
  end.




(** The completion handler of [validateCollection]. *)
Definition validateCollection_handler (collectionName : string)
    (err : JSValue) (doc : Document) : list Event :=
  if negb (loose_eq_null err) then [Called [err; JNull]]
  else if strict_eq_number (get doc "ok") (Finite 0)
  then [Called [JError "Error" "Error with validate command"; JNull]]
  else if negb (loose_eq_null (get doc "result"))
          && constructor_is_not_String (get doc "result")
  then [Called [JError "Error" "Error with validation data"; JNull]]
  else if negb (loose_eq_null (get doc "result"))
          && match_not_null (get doc "result")
  then [Called [JError "Error"
                  ("Error: invalid collection " ++ collectionName); JNull]]
  else if negb (loose_eq_null (get doc "valid"))
          && negb (ToBoolean (get doc "valid"))
  then [Called [JError "Error"
                  ("Error: invalid collection " ++ collectionName); JNull]]
  else [Called [JNull; JObject doc]].


Section WithUtils.
(** [toError] of ./utils, which is not among the sources: it turns a
    response document into an error value. *)
Variable toError : Document -> JSValue.

(** The completion handler of [serverStatus]. *)
Definition serverStatus_handler (err : JSValue) (doc : Document)
  : list Event :=
  if loose_eq_null err && strict_eq_number (get doc "ok") (Finite 1)
  then [Called [JNull; JObject doc]]
  else if ToBoolean err then [Called [err; JBool false]]
  else [Called [toError doc; JBool false]].

(** [var serverStatus = function(self, callback)]; [db] stands for
    [self.s.db.executeDbAdminCommand]. *)
Definition serverStatus (db : Server) : list Event :=
  let command := {[ "serverStatus" := num 1 ]} in
  Issued command
  :: (let '(err, doc) := db command in serverStatus_handler err doc).

(** The completion handler of [replSetGetStatus]. *)
Definition replSetGetStatus_handler (err : JSValue) (doc : Document)
  : list Event :=
  if loose_eq_null err && strict_eq_number (get doc "ok") (Finite 1)
  then [Called [JNull; JObject doc]]
  else if ToBoolean err then [Called [err; JBool false]]
  else [Called [toError doc; JBool false]].

(** [var replSetGetStatus = function(self, callback)] *)
Definition replSetGetStatus (db : Server) : list Event :=
  let command := {[ "replSetGetStatus" := num 1 ]} in
  Issued command
  :: (let '(err, doc) := db command in replSetGetStatus_handler err doc).
End WithUtils.

(** How [listDatabases] reaches [executeDbAdminCommand]: by calling it
    itself, or through [executeOperation]; either way with these
    arguments. *)
Inductive Dispatch :=
| Direct (args : list Argument)
| ThroughExecuteOperation (args : list Argument).

(** [Admin.prototype.command = function(command, options, callback)]: the
    argument array handed to [executeOperation] for
    [executeDbAdminCommand]. *)
Definition command (arguments : list Argument) : list Argument :=
  let args := drop 1 arguments in
  let '(args, callback) := pop_callback args in
  let options := shift_options args in
  [parameter arguments 0; options; callback].

(** [Admin.prototype.ping = function(options, callback)] *)
Definition ping (arguments : list Argument) : list Argument :=
  let args := drop 0 arguments in
  let '(args, callback) := pop_callback args in
  let cmd : Document := {[ "ping" := num 1 ]} in
  [Value (JObject cmd); callback].

(** [Admin.prototype.validateCollection = function(collectionName, options,
    callback)]: the arguments [collectionName, options, callback] that
    [executeOperation] passes on to [validateCollection]. *)
Definition validateCollection_arguments (arguments : list Argument)
  : list Argument :=
  let args := drop 1 arguments in
  let '(args, callback) := pop_callback args in
  let options := shift_options args in
  let options := or_empty options in
  [parameter arguments 0; options; callback].

Section WithProperties.
Context `{HostConversions}.
(** The enumerable properties of a value that is not a plain object, as
    [shallowClone] and [assign] of ./utils copy them; ./utils is not among
    the sources. *)
Variable enumerableProperties : Argument -> Document.

(** [writeConcern(options, self.s.db)] on the truthy [options] of [addUser]
    and [removeUser]. *)
Definition writeConcern_of (options : Argument) (db : Document) : Document :=
  match options with
  | Value (JObject o) => writeConcern o db
  | other => writeConcern (enumerableProperties other) db
  end.

(** [Admin.prototype.addUser = function(username, password, options,
    callback)]: the argument array handed to [executeOperation] for
    [db.addUser]. *)
Definition addUser (arguments : list Argument) (db : Document)
  : list Argument :=
  let args := drop 2 arguments in
  let '(args, callback) := pop_callback args in
  let options := shift_options args in
  let options := or_empty options in
  let options := writeConcern_of options db in
  let options := <["dbName" := JString "admin"]> options in
  [parameter arguments 0; parameter arguments 1; Value (JObject options);
   callback].

(** [Admin.prototype.removeUser = function(username, options, callback)]:
    the argument array handed to [executeOperation] for [db.removeUser]. *)
Definition removeUser (arguments : list Argument) (db : Document)
  : list Argument :=
  let args := drop 1 arguments in
  let '(args, callback) := pop_callback args in
  let options := shift_options args in
  let options := or_empty options in
  let options := writeConcern_of options db in
  let options := <["dbName" := JString "admin"]> options in
  [parameter arguments 0; Value (JObject options); callback].

(** Modelled from the spec: [assign(cmd, options)] (./utils is not among
    the sources) merges the caller's options into the command "via shallow
    key copy"; a source that is [undefined] or [null] adds nothing. *)
Definition assign (cmd : Document) (options : Argument) : Document :=
  match options with
  | Value JUndefined | Value JNull => cmd
  | Value (JObject o) => o ∪ cmd
  | other => enumerableProperties other ∪ cmd
  end.

(** [Admin.prototype.listDatabases = function(options, callback)] *)
Definition listDatabases (options callback : Argument) : Dispatch :=
  let cmd : Document := {[ "listDatabases" := num 1 ]} in
  if is_function options
  then Direct [Value (JObject cmd); Value (JObject ∅); options]
  else
    let cmd := assign cmd options in
    let cmd :=
      if ToBoolean (get cmd "nameOnly")
      then <["nameOnly" := JNumber (ToNumber (get cmd "nameOnly"))]> cmd
      else cmd in
    ThroughExecuteOperation
      [Value (JObject cmd); Value (JObject ∅); callback].
End WithProperties.






End Admin.

(** ** Vocabulary of the specification *)

(** A [multi] flag that is absent or explicitly false, read off the
    sub-operation's own properties. *)
Definition multi_absent_or_false (op : Document) : Prop :=
  op !! "multi" = None \/ op !! "multi" = Some JUndefined
  \/ op !! "multi" = Some JNull \/ op !! "multi" = Some (JBool false).

(** A number above zero. *)
Definition positive_number (n : number) : Prop :=
  match n with
  | Finite q => (0 < q)%Q
  | Infinity false => True
  | _ => False
  end.

(** A [limit] that is unset, or set to a value that is greater than 0 when
    it is read as a number. *)
Definition limit_unset_or_positive `{HostConversions} (op : Document) : Prop :=
  op !! "limit" = None \/ op !! "limit" = Some JUndefined
  \/ exists v, op !! "limit" = Some v /\ positive_number (ToNumber v).

(** A key that the caller's options specify, whatever its value. *)
Definition specifies (options : Document) (key : string) : Prop :=
  is_Some (options !! key).

(** The callback invocation [done(error, null)]. *)
Definition done_error_null (error : JSValue) : Event :=
  Called [error; JNull].

(** A trace that ends an issued command with [done(error, null)]. *)
Definition completes_with_error_null (trace : list Event) : Prop :=
  exists command error, trace = [Issued command; done_error_null error].


(** A host to run the examples on: its conversions give up on strings and
    objects, which the examples do not convert. *)
Definition plain_host : HostConversions := {|
  StringToNumber := fun _ => NaN;
  NumberToString := fun _ => "NaN";
  ObjectToNumber := fun _ => NaN;
  ObjectToString := fun _ => "[object Object]"
|}.

(** ** The retry predicates *)

Lemma update_op_retryable (op : Document) :
  loose_eq_null (get op "multi") || strict_eq_bool (get op "multi") false = true
  <-> multi_absent_or_false op.
Proof.
  unfold multi_absent_or_false, get.
  destruct (op !! "multi") as [v|] eqn:E; simpl.
  - destruct v as [| |[]| | | |]; simpl; split; intros Hx;
      try discriminate; try reflexivity; auto;
      destruct Hx as [Hx|[Hx|[Hx|Hx]]]; congruence.
  - split; auto.
Qed.

(** C1: [UpdateOperation.canRetryWrite] is true exactly when every
    sub-operation has its [multi] flag absent (missing, [undefined] or
    [null]) or explicitly [false]; [[{multi:false}]] and
    [[{}, {multi:false}]] give true, [[{multi:true}]] and
    [[{}, {multi:true}]] give false. *)
Theorem update_canRetryWrite_spec :
  (forall ns ops options,
      UpdateOperation.canRetryWrite (UpdateOperation.new ns ops options) = true
      <-> Forall multi_absent_or_false ops)
  /\ (forall ns options,
         UpdateOperation.canRetryWrite
           (UpdateOperation.new ns [ {["multi" := JBool false]} ] options)
         = true
         /\ UpdateOperation.canRetryWrite
              (UpdateOperation.new ns [ {["multi" := JBool true]} ] options)
            = false
         /\ UpdateOperation.canRetryWrite
              (UpdateOperation.new ns [ ∅; {["multi" := JBool false]} ]
                 options)
            = true
         /\ UpdateOperation.canRetryWrite
              (UpdateOperation.new ns [ ∅; {["multi" := JBool true]} ] options)
            = false).
Proof.
  split.
  - intros ns ops options. unfold UpdateOperation.canRetryWrite; simpl.
    rewrite forallb_forall, Forall_forall.
    split; intros Hall op Hin;
      apply update_op_retryable, Hall; by apply list_elem_of_In.
  - intros ns options. repeat split; reflexivity.
Qed.

Lemma number_lt_zero (n : number) :
  number_lt (Finite 0) n = true <-> positive_number n.
Proof.
  destruct n as [|[]|q]; simpl; try (split; [discriminate|tauto]);
    try (split; auto).
  - intros Hlt. apply negb_true_iff in Hlt.
    destruct (Qlt_le_dec 0 q) as [Hpos|Hle]; [exact Hpos|].
    apply Qle_bool_iff in Hle. congruence.
  - intros Hpos. apply negb_true_iff.
    destruct (Qle_bool q 0) eqn:Hle; [|reflexivity].
    apply Qle_bool_iff in Hle. exfalso. exact (Qlt_not_le _ _ Hpos Hle).
Qed.

Section DeleteRetry.
Context `{HostConversions}.

Lemma typeof_undefined (v : JSValue) :
  String.eqb (typeof v) "undefined" = true <-> v = JUndefined.
Proof. destruct v; simpl; split; intros Hx; try discriminate; auto. Qed.

Lemma delete_op_retryable (op : Document) :
  (if negb (String.eqb (typeof (get op "limit")) "undefined")
   then greater_than (get op "limit") (Finite 0)
   else true) = true
  <-> limit_unset_or_positive op.
Proof.
  unfold limit_unset_or_positive, get, greater_than.
  destruct (op !! "limit") as [v|] eqn:E; cbn [default from_option id];
    [|split; auto].
  destruct (String.eqb (typeof v) "undefined") eqn:Hty; cbn [negb].
  - apply typeof_undefined in Hty. subst v. split; auto.
  - rewrite number_lt_zero. split.
    + intros Hpos. right. right. exists v. auto.
    + intros [Hx|[Hx|(w & Hw & Hpos)]]; try discriminate.
      * injection Hx as ->. discriminate.
      * by injection Hw as ->.
Qed.

(** C2: [DeleteOperation.canRetryWrite] is true exactly when every
    sub-operation has its [limit] unset or greater than 0; [[{limit:1}]] and
    [[{}]] give true, [[{limit:0}]] and [[{limit:1},{limit:0}]] give
    false. *)
Theorem delete_canRetryWrite_spec :
  (forall ns ops options,
      DeleteOperation.canRetryWrite (DeleteOperation.new ns ops options) = true
      <-> Forall limit_unset_or_positive ops)
  /\ (forall ns options,
         DeleteOperation.canRetryWrite
           (DeleteOperation.new ns [ {["limit" := num 1]} ] options) = true
         /\ DeleteOperation.canRetryWrite
              (DeleteOperation.new ns [ {["limit" := num 0]} ] options) = false
         /\ DeleteOperation.canRetryWrite
              (DeleteOperation.new ns [ ∅ ] options) = true
         /\ DeleteOperation.canRetryWrite
              (DeleteOperation.new ns
                 [ {["limit" := num 1]}; {["limit" := num 0]} ] options)
            = false).
Proof.
  split.
  - intros ns ops options. unfold DeleteOperation.canRetryWrite; simpl.
    rewrite forallb_forall, Forall_forall.
    split; intros Hall op Hin;
      apply delete_op_retryable, Hall; by apply list_elem_of_In.
  - intros ns options. repeat split; reflexivity.
Qed.

(** C10: on the empty sub-operation array both [UpdateOperation.canRetryWrite]
    and [DeleteOperation.canRetryWrite] return true. *)
Theorem canRetryWrite_empty :
  (forall ns options,
      UpdateOperation.canRetryWrite (UpdateOperation.new ns [] options) = true)
  /\ (forall ns options,
         DeleteOperation.canRetryWrite (DeleteOperation.new ns [] options)
         = true).
Proof. split; intros; reflexivity. Qed.

End DeleteRetry.

(** ** The write-concern helper *)

(** Whatever the options and the database default are, the helper returns
    the copy it made on entry: past the first test every guarded assignment
    tests a property that the first test has just found falsy. *)
Lemma writeConcern_returns_copy (options db : Document) :
  Admin.writeConcern options db = Admin.shallowClone options.
Proof.
  unfold Admin.writeConcern, Admin.shallowClone. cbv zeta.
  destruct (ToBoolean (get options "w")) eqn:Hw; [reflexivity|].
  destruct (ToBoolean (get options "wtimeout")) eqn:Hwtimeout; [reflexivity|].
  destruct (ToBoolean (get options "j")) eqn:Hj; [reflexivity|].
  destruct (ToBoolean (get options "fsync")) eqn:Hfsync; [reflexivity|].
  cbn [orb].
  destruct (ToBoolean (get db "writeConcern")); reflexivity.
Qed.

(** C3: with options that specify none of [w], [wtimeout], [j], [fsync] and
    the database default [{w:2}], [writeConcern({}, {writeConcern:{w:2}})]
    returns [{}]: the default is not overlaid, and [{w:2}] is not what comes
    back.  The explicit value does win: [writeConcern({w:1},
    {writeConcern:{w:2}})] returns [{w:1}]. *)
Theorem writeConcern_default_not_overlaid :
  Admin.writeConcern ∅ {[ "writeConcern" := JObject {[ "w" := num 2 ]} ]} = ∅
  /\ Admin.writeConcern ∅ {[ "writeConcern" := JObject {[ "w" := num 2 ]} ]}
     <> {[ "w" := num 2 ]}
  /\ Admin.writeConcern {[ "w" := num 1 ]}
       {[ "writeConcern" := JObject {[ "w" := num 2 ]} ]}
     = {[ "w" := num 1 ]}.
Proof.
  rewrite !writeConcern_returns_copy. unfold Admin.shallowClone.
  repeat split.
  intros Heq. apply (f_equal (fun m : Document => m !! "w")) in Heq.
  rewrite lookup_empty, lookup_singleton_eq in Heq. discriminate.
Qed.

(** C7: when the caller's options contain one of the keys [w], [wtimeout],
    [j], [fsync], with whatever value (also a falsy one such as [0] or
    [false]), [writeConcern] returns the copy of the options unchanged,
    whatever the database default is. *)
Theorem writeConcern_specified_by_presence (options db : Document) :
  specifies options "w" \/ specifies options "wtimeout"
  \/ specifies options "j" \/ specifies options "fsync" ->
  Admin.writeConcern options db = options.
Proof. intros _. apply writeConcern_returns_copy. Qed.

(** The falsy-but-present cases [{w: 0}] and [{j: false}], against defaults
    that set the same key. *)
Lemma writeConcern_specified_by_presence_witness :
  Admin.writeConcern {[ "w" := num 0 ]}
    {[ "writeConcern" := JObject {[ "w" := num 2 ]} ]}
  = {[ "w" := num 0 ]}
  /\ Admin.writeConcern {[ "j" := JBool false ]}
       {[ "writeConcern" := JObject {[ "j" := JBool true ]} ]}
     = {[ "j" := JBool false ]}.
Proof.
  split.
  - apply writeConcern_specified_by_presence. left.
    unfold specifies. rewrite lookup_singleton_eq. eauto.
  - apply writeConcern_specified_by_presence. right. right. left.
    unfold specifies. rewrite lookup_singleton_eq. eauto.
Defined.






(** ** [validateCollection] *)


(** ** The profiling-level operation *)

Section Profiling.
Context `{HostConversions}.

Lemma levelValues_has_spec (level : JSValue) :
  SetProfilingLevelOperation.levelValues_has level = true
  <-> level = JString "off" \/ level = JString "slow_only"
      \/ level = JString "all".
Proof.
  unfold SetProfilingLevelOperation.levelValues_has,
    SetProfilingLevelOperation.levelValues.
  destruct level as [| | | |s| |];
    try (split; [discriminate | intros [Hx|[Hx|Hx]]; discriminate]).
  rewrite bool_decide_eq_true, !elem_of_union, !elem_of_singleton.
  split.
  - intros [[->| ->]| ->]; auto.
  - intros [Hx|[Hx|Hx]]; injection Hx as ->; auto.
Qed.

(** C5: the constructor maps [off], [slow_only], [all] to 0, 1, 2 and
    [execute] issues [{profile: N}] with that integer, followed by one
    callback invocation; for any other level [execute] issues no command and
    calls back at once with an error. *)
Theorem setProfilingLevel_command (db options : JSValue) (server : Server) :
  (SetProfilingLevelOperation.profile
     (SetProfilingLevelOperation.new db (JString "off") options) = num 0
   /\ exists args,
       SetProfilingLevelOperation.execute
         (SetProfilingLevelOperation.new db (JString "off") options) server
       = [Issued {[ "profile" := num 0 ]}; Called args])
  /\ (SetProfilingLevelOperation.profile
        (SetProfilingLevelOperation.new db (JString "slow_only") options)
      = num 1
      /\ exists args,
          SetProfilingLevelOperation.execute
            (SetProfilingLevelOperation.new db (JString "slow_only") options)
            server
          = [Issued {[ "profile" := num 1 ]}; Called args])
  /\ (SetProfilingLevelOperation.profile
        (SetProfilingLevelOperation.new db (JString "all") options) = num 2
      /\ exists args,
          SetProfilingLevelOperation.execute
            (SetProfilingLevelOperation.new db (JString "all") options) server
          = [Issued {[ "profile" := num 2 ]}; Called args])
  /\ (forall level,
         level <> JString "off" -> level <> JString "slow_only" ->
         level <> JString "all" ->
         SetProfilingLevelOperation.execute
           (SetProfilingLevelOperation.new db level options) server
         = [Called [JError "Error"
                      (concat "Error: illegal profiling level value " level)]])
  /\ SetProfilingLevelOperation.execute
       (SetProfilingLevelOperation.new db (JString "bogus") options) server
     = [Called [JError "Error" "Error: illegal profiling level value bogus"]].
Proof.
  assert (Hissue : forall level n,
             SetProfilingLevelOperation.levelValues_has level = true ->
             SetProfilingLevelOperation.profile
               (SetProfilingLevelOperation.new db level options) = n ->
             exists args,
               SetProfilingLevelOperation.execute
                 (SetProfilingLevelOperation.new db level options) server
               = [Issued {[ "profile" := n ]}; Called args]).
  { intros level n Hhas Hn.
    unfold SetProfilingLevelOperation.execute, executeCommand.
    cbn [SetProfilingLevelOperation.level SetProfilingLevelOperation.new].
    rewrite Hhas. cbn [negb]. rewrite Hn.
    destruct (server _) as [err doc].
    destruct (loose_eq_null err && _); [eauto|].
    destruct (negb (loose_eq_null err)); eauto. }
  split; [|split; [|split; [|split]]].
  - split; [reflexivity|]. apply Hissue; reflexivity.
  - split; [reflexivity|]. apply Hissue; reflexivity.
  - split; [reflexivity|]. apply Hissue; reflexivity.
  - intros level Hoff Hslow Hall.
    unfold SetProfilingLevelOperation.execute.
    cbn [SetProfilingLevelOperation.level SetProfilingLevelOperation.new].
    destruct (SetProfilingLevelOperation.levelValues_has level) eqn:Hhas;
      [|reflexivity].
    apply levelValues_has_spec in Hhas. tauto.
  - reflexivity.
Qed.

(** C8: when the level is one of the three and the profile command is
    answered without error by a document with [ok === 1], the callback
    receives the level string itself, not the integer that was sent. *)
Theorem setProfilingLevel_returns_level (db options : JSValue)
    (server : Server) (level : string) (err : JSValue) (doc : Document) :
  level = "off" \/ level = "slow_only" \/ level = "all" ->
  server {[ "profile" := SetProfilingLevelOperation.profile
                           (SetProfilingLevelOperation.new
                              db (JString level) options) ]}
  = (err, doc) ->
  loose_eq_null err = true ->
  strict_eq_number (get doc "ok") (Finite 1) = true ->
  SetProfilingLevelOperation.execute
    (SetProfilingLevelOperation.new db (JString level) options) server
  = [Issued {[ "profile" := SetProfilingLevelOperation.profile
                              (SetProfilingLevelOperation.new
                                 db (JString level) options) ]};
     Called [JUndefined; JString level]]
  /\ JString level <> SetProfilingLevelOperation.profile
                        (SetProfilingLevelOperation.new
                           db (JString level) options).
Proof.
  intros Hlevel Hserver Herr Hok. split.
  - unfold SetProfilingLevelOperation.execute, executeCommand.
    cbn [SetProfilingLevelOperation.level].
    replace (SetProfilingLevelOperation.level
               (SetProfilingLevelOperation.new db (JString level) options))
      with (JString level) by reflexivity.
    assert (Hhas : SetProfilingLevelOperation.levelValues_has (JString level)
                   = true).
    { apply levelValues_has_spec.
      destruct Hlevel as [->|[->| ->]]; auto. }
    rewrite Hhas. cbn [negb]. rewrite Hserver, Herr, Hok. reflexivity.
  - destruct Hlevel as [->|[->| ->]]; discriminate.
Qed.

End Profiling.

(** [setProfilingLevel("all")] answered by [{ok: 1}] delivers ["all"]. *)
Lemma setProfilingLevel_returns_level_witness :
  @SetProfilingLevelOperation.execute plain_host
    (SetProfilingLevelOperation.new JUndefined (JString "all") JUndefined)
    (fun _ => (JNull, {[ "ok" := num 1 ]}))
  = [Issued {[ "profile" := num 2 ]}; Called [JUndefined; JString "all"]]
  /\ JString "all" <> num 2.
Proof.
  apply (@setProfilingLevel_returns_level plain_host JUndefined JUndefined
           (fun _ => (JNull, {[ "ok" := num 1 ]})) "all" JNull
           {[ "ok" := num 1 ]}).
  - right. right. reflexivity.
  - reflexivity.
  - reflexivity.
  - reflexivity.
Defined.

(** ** Failure paths of the admin commands *)

Section Failures.
Context `{HostConversions}.
Variable toError : Document -> JSValue.

(** What the private functions pass to the callback they are given (for the
    admin methods, the handler injected by [executeOperation]): on every
    failure path one call, with the error as its first argument; the second
    argument is [false] in [serverStatus] and [replSetGetStatus], [null] in
    [validateCollection] and after a failed profile command, and missing
    when [setProfilingLevel] rejects an illegal level. *)
Lemma admin_failure_callbacks :
  (forall err doc,
      loose_eq_null err && strict_eq_number (get doc "ok") (Finite 1) = false ->
      Admin.serverStatus_handler toError err doc
      = [Called [if ToBoolean err then err else toError doc; JBool false]]
      /\ Admin.replSetGetStatus_handler toError err doc
         = [Called [if ToBoolean err then err else toError doc; JBool false]])
  /\ (forall name err doc,
         Admin.validateCollection_handler name err doc
         = [Called [JNull; JObject doc]]
         \/ exists error,
             loose_eq_null error = false
             /\ Admin.validateCollection_handler name err doc
                = [done_error_null error])
  /\ (forall db level options server,
         let this := SetProfilingLevelOperation.new db level options in
         SetProfilingLevelOperation.execute this server
         = [Called [JError "Error"
                      (concat "Error: illegal profiling level value " level)]]
         \/ SetProfilingLevelOperation.execute this server
            = [Issued {[ "profile" := SetProfilingLevelOperation.profile this ]};
               Called [JUndefined; level]]
         \/ exists error,
             loose_eq_null error = false
             /\ SetProfilingLevelOperation.execute this server
                = [Issued {[ "profile" :=
                               SetProfilingLevelOperation.profile this ]};
                   done_error_null error]).
Proof.
  split; [|split].
  - intros err doc Hfail.
    unfold Admin.serverStatus_handler, Admin.replSetGetStatus_handler.
    rewrite Hfail. destruct (ToBoolean err); split; reflexivity.
  - intros name err doc. unfold Admin.validateCollection_handler.
    destruct (loose_eq_null err) eqn:Herr; cbn [negb].
    2:{ right. exists err. split; [exact Herr|reflexivity]. }
    repeat match goal with
           | |- context [if ?c then _ else _] =>
               destruct c;
               [right; eexists; split; [|reflexivity]; reflexivity|]
           end.
    left. reflexivity.
  - intros db level options server this.
    unfold SetProfilingLevelOperation.execute, executeCommand.
    destruct (negb _); [left; reflexivity|].
    destruct (server _) as [err doc].
    destruct (loose_eq_null err && _); [right; left; reflexivity|].
    right. right.
    destruct (loose_eq_null err) eqn:Herr; cbn [negb].
    + eexists. split; [|reflexivity]. reflexivity.
    + exists err. split; [exact Herr|reflexivity].
Qed.

End Failures.




(** ** Constructors of the single-target operations *)

(** C9: [UpdateManyOperation] and [DeleteOneOperation] are constructed
    without any check: an update document [{a: 1}] with no atomic operator,
    or the filter [null], gives an operation and no error.  Their siblings do
    check: [UpdateOneOperation] throws when the update document has no atomic
    operator and [DeleteManyOperation] throws when the filter is not an
    object. *)
Theorem constructors_validation :
  (forall collection filter update options,
      UpdateManyOperation.new collection filter update options
      = Normal {| UpdateManyOperation.base :=
                    {| parent := collection; options := options |};
                  UpdateManyOperation.collection := collection;
                  UpdateManyOperation.filter := filter;
                  UpdateManyOperation.update := update |})
  /\ (forall collection filter options,
         DeleteOneOperation.new collection filter options
         = Normal {| DeleteOneOperation.base :=
                       {| parent := collection; options := options |};
                     DeleteOneOperation.collection := collection;
                     DeleteOneOperation.filter := filter |})
  /\ (forall collection,
         (exists op,
             UpdateManyOperation.new collection (JObject ∅)
               (JObject {[ "a" := num 1 ]}) (JObject ∅) = Normal op)
         /\ exists op,
             DeleteOneOperation.new collection JNull (JObject ∅) = Normal op)
  /\ (forall hasAtomicOperators collection filter update options,
         hasAtomicOperators update = false ->
         UpdateOneOperation.new hasAtomicOperators collection filter update
           options
         = Throw (JError "TypeError"
                    "Update document requires atomic operators"))
  /\ (forall collection filter options,
         isObject filter = false ->
         DeleteManyOperation.new collection filter options
         = Throw (JError "TypeError" "filter is a required parameter")).
Proof.
  split; [|split; [|split; [|split]]].
  - reflexivity.
  - reflexivity.
  - intros collection. split; eexists; reflexivity.
  - intros hasAtomicOperators collection filter update options Hnone.
    unfold UpdateOneOperation.new. rewrite Hnone. reflexivity.
  - intros collection filter options Hnot.
    unfold DeleteManyOperation.new. rewrite Hnot. reflexivity.
Qed.

(** ** Further properties of the retry predicates *)

Section RetryBatches.
Context `{HostConversions}.

(** X1: a batch is retry-eligible exactly when its two halves are, for
    updates and for deletes alike, and the order of the sub-operations does
    not matter. *)
Theorem canRetryWrite_batches :
  (forall ns ops1 ops2 options,
      UpdateOperation.canRetryWrite
        (UpdateOperation.new ns (ops1 ++ ops2) options)
      = UpdateOperation.canRetryWrite (UpdateOperation.new ns ops1 options)
        && UpdateOperation.canRetryWrite (UpdateOperation.new ns ops2 options))
  /\ (forall ns ops1 ops2 options,
         DeleteOperation.canRetryWrite
           (DeleteOperation.new ns (ops1 ++ ops2) options)
         = DeleteOperation.canRetryWrite (DeleteOperation.new ns ops1 options)
           && DeleteOperation.canRetryWrite
                (DeleteOperation.new ns ops2 options))
  /\ (forall ns ops ops' options,
         ops ≡ₚ ops' ->
         UpdateOperation.canRetryWrite (UpdateOperation.new ns ops options)
         = UpdateOperation.canRetryWrite (UpdateOperation.new ns ops' options))
  /\ (forall ns ops ops' options,
         ops ≡ₚ ops' ->
         DeleteOperation.canRetryWrite (DeleteOperation.new ns ops options)
         = DeleteOperation.canRetryWrite (DeleteOperation.new ns ops' options)).
Proof.
  assert (Hperm : forall (f : Document -> bool) (ops ops' : list Document),
             ops ≡ₚ ops' -> forallb f ops = forallb f ops').
  { intros f ops ops' Hp.
    induction Hp as [|op l l' _ IH|a b l|l1 l2 l3 _ IH1 _ IH2]; simpl.
    - reflexivity.
    - by rewrite IH.
    - destruct (f a), (f b); reflexivity.
    - by rewrite IH1. }
  split; [|split; [|split]].
  - intros. apply forallb_app.
  - intros. apply forallb_app.
  - intros ns ops ops' options Hp. by apply Hperm.
  - intros ns ops ops' options Hp. by apply Hperm.
Qed.

(** X2: a delete sub-operation whose [limit] is set (anything but
    [undefined]) to a value that is not a number above zero makes the whole
    batch ineligible wherever it stands.  [null] counts as set: [limit: null]
    blocks the retry, and so do [false], [-1] and NaN, while [limit: true]
    passes; for updates [multi: null] counts as absent. *)
Theorem delete_limit_edge_values :
  (forall ns options before op after v,
      v <> JUndefined -> ~ positive_number (ToNumber v) ->
      DeleteOperation.canRetryWrite
        (DeleteOperation.new ns (before ++ <["limit" := v]> op :: after)
           options) = false)
  /\ (forall ns options op,
         DeleteOperation.canRetryWrite
           (DeleteOperation.new ns [ <["limit" := JNull]> op ] options) = false
         /\ DeleteOperation.canRetryWrite
              (DeleteOperation.new ns [ <["limit" := JBool false]> op ] options)
            = false
         /\ DeleteOperation.canRetryWrite
              (DeleteOperation.new ns [ <["limit" := num (-1)]> op ] options)
            = false
         /\ DeleteOperation.canRetryWrite
              (DeleteOperation.new ns [ <["limit" := JNumber NaN]> op ] options)
            = false
         /\ DeleteOperation.canRetryWrite
              (DeleteOperation.new ns [ <["limit" := JBool true]> op ] options)
            = true)
  /\ (forall ns options op,
         UpdateOperation.canRetryWrite
           (UpdateOperation.new ns [ <["multi" := JNull]> op ] options) = true).
Proof.
  assert (Hone : forall (op : Document) v,
             (if negb (String.eqb (typeof (get (<["limit" := v]> op) "limit"))
                         "undefined")
              then greater_than (get (<["limit" := v]> op) "limit") (Finite 0)
              else true)
             = if String.eqb (typeof v) "undefined" then true
               else number_lt (Finite 0) (ToNumber v)).
  { intros op v. unfold get. rewrite lookup_insert_eq.
    cbn [default from_option id]. unfold greater_than.
    destruct (String.eqb (typeof v) "undefined"); reflexivity. }
  split; [|split].
  - intros ns options before op after v Hset Hnot.
    unfold DeleteOperation.canRetryWrite. cbn [DeleteOperation.operations
      DeleteOperation.new].
    rewrite forallb_app. cbn [forallb]. rewrite Hone.
    destruct (String.eqb (typeof v) "undefined") eqn:Hty.
    + apply typeof_undefined in Hty. contradiction.
    + destruct (number_lt (Finite 0) (ToNumber v)) eqn:Hlt.
      * apply number_lt_zero in Hlt. contradiction.
      * cbn [andb]. apply andb_false_r.
  - intros ns options op.
    unfold DeleteOperation.canRetryWrite. cbn [DeleteOperation.operations
      DeleteOperation.new forallb].
    rewrite !Hone. repeat split; reflexivity.
  - intros ns options op.
    unfold UpdateOperation.canRetryWrite. cbn [UpdateOperation.operations
      UpdateOperation.new forallb].
    unfold get. rewrite lookup_insert_eq. reflexivity.
Qed.

End RetryBatches.

(** ** What [execute] hands to [removeDocuments] and [updateDocuments] *)

Lemma typeof_boolean (v : JSValue) :
  String.eqb (typeof v) "boolean" = true <-> exists b, v = JBool b.
Proof.
  destruct v; simpl; split; intros Hx; try discriminate; eauto;
    destruct Hx as [b Hb]; discriminate.
Qed.

(** X3: with an options object [o], [DeleteOneOperation.execute] always
    passes [single: true]; [DeleteManyOperation.execute] always passes a
    boolean [single]: the caller's if it is one (so [single: true] survives),
    [false] otherwise.  Both leave every other option as it is, and
    [deleteMany] given [single: true] makes the very call [deleteOne]
    makes. *)
Theorem delete_execute_single (c f : JSValue) (o : Document) :
  let one := {| DeleteOneOperation.base :=
                  {| parent := c; options := JObject o |};
                DeleteOneOperation.collection := c;
                DeleteOneOperation.filter := f |} in
  let many := fun o' : Document =>
              {| DeleteManyOperation.base :=
                   {| parent := c; options := JObject o' |};
                 DeleteManyOperation.collection := c;
                 DeleteManyOperation.filter := f |} in
  exists call_one call_many,
    DeleteOneOperation.execute one = Some call_one
    /\ DeleteManyOperation.execute (many o) = Some call_many
    /\ get (remove_options call_one) "single" = JBool true
    /\ (exists b, get (remove_options call_many) "single" = JBool b)
    /\ (forall b, get o "single" = JBool b -> remove_options call_many = o)
    /\ ((forall b, get o "single" <> JBool b) ->
        remove_options call_many = <["single" := JBool false]> o)
    /\ (forall k, k <> "single" ->
                  remove_options call_one !! k = o !! k
                  /\ remove_options call_many !! k = o !! k)
    /\ DeleteManyOperation.execute (many (<["single" := JBool true]> o))
       = Some call_one.
Proof.
  cbv zeta. unfold DeleteOneOperation.execute, DeleteManyOperation.execute.
  cbn [DeleteOneOperation.base DeleteManyOperation.base options
       DeleteOneOperation.collection DeleteOneOperation.filter
       DeleteManyOperation.collection DeleteManyOperation.filter].
  eexists. eexists. split; [reflexivity|]. split; [reflexivity|].
  cbn [remove_options].
  split; [|split; [|split; [|split; [|split]]]].
  - unfold get. by rewrite lookup_insert_eq.
  - destruct (String.eqb (typeof (get o "single")) "boolean") eqn:Hty;
      cbn [negb].
    + apply typeof_boolean in Hty as [b Hb]. exists b. exact Hb.
    + exists false. unfold get. by rewrite lookup_insert_eq.
  - intros b Hb. rewrite Hb. reflexivity.
  - intros Hnone.
    destruct (String.eqb (typeof (get o "single")) "boolean") eqn:Hty;
      [|reflexivity].
    apply typeof_boolean in Hty as [b Hb]. exfalso. by apply (Hnone b).
  - intros k Hk. split.
    + by rewrite lookup_insert_ne.
    + destruct (negb _); [by rewrite lookup_insert_ne | reflexivity].
  - unfold get. rewrite lookup_insert_eq. reflexivity.
Qed.

(** X4: with an options object [o], [UpdateOneOperation.execute] passes
    [multi: false] and [UpdateManyOperation.execute] passes [multi: true],
    whatever [multi] the caller put in [o]; the two calls agree on
    everything else, every other option being the caller's. *)
Theorem update_execute_multi (c f u : JSValue) (o : Document) :
  let one := {| UpdateOneOperation.base :=
                  {| parent := c; options := JObject o |};
                UpdateOneOperation.collection := c;
                UpdateOneOperation.filter := f;
                UpdateOneOperation.update := u |} in
  let many := {| UpdateManyOperation.base :=
                   {| parent := c; options := JObject o |};
                 UpdateManyOperation.collection := c;
                 UpdateManyOperation.filter := f;
                 UpdateManyOperation.update := u |} in
  exists call_one call_many,
    UpdateOneOperation.execute one = Some call_one
    /\ UpdateManyOperation.execute many = Some call_many
    /\ get (update_options call_one) "multi" = JBool false
    /\ get (update_options call_many) "multi" = JBool true
    /\ (forall k, k <> "multi" ->
                  update_options call_one !! k = o !! k
                  /\ update_options call_many !! k = o !! k)
    /\ update_options call_many
       = <["multi" := JBool true]> (update_options call_one)
    /\ (update_coll call_one, update_filter call_one, update_document call_one)
       = (update_coll call_many, update_filter call_many,
          update_document call_many).
Proof.
  cbv zeta. eexists. eexists.
  split; [reflexivity|]. split; [reflexivity|].
  cbn [update_options update_coll update_filter update_document
       UpdateOneOperation.collection UpdateOneOperation.filter
       UpdateOneOperation.update UpdateManyOperation.collection
       UpdateManyOperation.filter UpdateManyOperation.update].
  split; [|split; [|split; [|split]]].
  - unfold get. by rewrite lookup_insert_eq.
  - unfold get. by rewrite lookup_insert_eq.
  - intros k Hk. by rewrite !lookup_insert_ne.
  - by rewrite insert_insert_eq.
  - reflexivity.
Qed.

(** ** The aspect table *)

(** X5: every operation type that declares [RETRYABLE] also declares
    [WRITE_OPERATION]; every type declares [EXECUTE_WITH_SELECTION]; and the
    types that declare [RETRYABLE] are the bulk and the "one" variants, never
    [UpdateManyOperation], [DeleteManyOperation] or the profiling-level
    operation. *)
Theorem aspects_table :
  (forall operation,
      Aspects.hasAspect operation Aspects.RETRYABLE = true ->
      Aspects.hasAspect operation Aspects.WRITE_OPERATION = true)
  /\ (forall operation,
         Aspects.hasAspect operation Aspects.EXECUTE_WITH_SELECTION = true)
  /\ (forall operation,
         Aspects.hasAspect operation Aspects.RETRYABLE = true
         <-> operation ∈ [Aspects.Update; Aspects.UpdateOne;
                          Aspects.Delete; Aspects.DeleteOne]).
Proof.
  split; [|split].
  - intros []; intros Hr; try reflexivity; discriminate Hr.
  - intros []; reflexivity.
  - intros operation. rewrite !elem_of_cons, elem_of_nil.
    destruct operation; cbn; split; intros Hx; try reflexivity;
      try discriminate Hx; auto;
      destruct Hx as [Hx|[Hx|[Hx|[Hx|[]]]]]; discriminate Hx.
Qed.

(** ** Further properties of the admin commands *)

(** X6: [writeConcern] returns the caller's options as they are, for every
    options object and every database: no value of [db.writeConcern] ever
    reaches the result, and the result has a write-concern key only if the
    caller gave it. *)
Theorem writeConcern_ignores_default (options db : Document) :
  Admin.writeConcern options db = options
  /\ (forall db', Admin.writeConcern options db' = Admin.writeConcern options db)
  /\ (forall key, Admin.writeConcern options db !! key = options !! key).
Proof.
  split; [|split].
  - apply writeConcern_returns_copy.
  - intros db'. by rewrite !writeConcern_returns_copy.
  - intros key. by rewrite writeConcern_returns_copy.
Qed.


(** X8: [validateCollection] reports success exactly when there is no
    transport error, [doc.ok] is not the number 0, [doc.result] is missing or
    a string that matches neither word, and [doc.valid] is missing or truthy;
    the value delivered is then the response document.  A response without
    any [ok] field passes, and a [valid] of [0] or of the empty string fails
    like [false]. *)
Theorem validateCollection_success (name : string) (err : JSValue)
    (doc : Document) :
  (Admin.validateCollection_handler name err doc = [Called [JNull; JObject doc]]
   <-> loose_eq_null err = true
       /\ strict_eq_number (get doc "ok") (Finite 0) = false
       /\ (loose_eq_null (get doc "result") = true
           \/ exists s, get doc "result" = JString s
                        /\ Admin.matches_exception_or_corrupt s = false)
       /\ (loose_eq_null (get doc "valid") = true
           \/ ToBoolean (get doc "valid") = true))
  /\ Admin.validateCollection_handler name JNull ∅ = [Called [JNull; JObject ∅]]
  /\ Admin.validateCollection_handler name JNull {[ "valid" := num 0 ]}
     = Admin.validateCollection_handler name JNull {[ "valid" := JBool false ]}
  /\ Admin.validateCollection_handler name JNull {[ "valid" := JString "" ]}
     = Admin.validateCollection_handler name JNull {[ "valid" := JBool false ]}.
Proof.
  split; [|repeat split; reflexivity].
  unfold Admin.validateCollection_handler.
  destruct (loose_eq_null err) eqn:Herr; cbn [negb].
  2:{ split; [intros Hx; discriminate Hx | intros [Hx _]; discriminate Hx]. }
  destruct (strict_eq_number (get doc "ok") (Finite 0)) eqn:Hok.
  { split; [intros Hx; discriminate Hx | intros (_ & Hx & _); discriminate Hx]. }
  destruct (loose_eq_null (get doc "result")) eqn:Hres; cbn [negb andb].
  - destruct (loose_eq_null (get doc "valid")) eqn:Hval; cbn [negb andb].
    + split; auto.
    + destruct (ToBoolean (get doc "valid")) eqn:Htrue; cbn [negb].
      * split; auto 6.
      * split; [intros Hx; discriminate Hx|].
        intros (_ & _ & _ & [Hx|Hx]); discriminate Hx.
  - destruct (get doc "result") as [| |b|n|s|en em|o] eqn:Hr;
      try discriminate Hres;
      cbn [Admin.constructor_is_not_String Admin.match_not_null];
      try (split; [intros Hx; discriminate Hx|];
           intros (_ & _ & [Hx|(s' & Hx & _)] & _); discriminate Hx).
    destruct (Admin.matches_exception_or_corrupt s) eqn:Hm.
    + split; [intros Hx; discriminate Hx|].
      intros (_ & _ & [Hx|(s' & Hx & Hm')] & _); [discriminate Hx|].
      injection Hx as <-. congruence.
    + destruct (loose_eq_null (get doc "valid")) eqn:Hval; cbn [negb andb].
      * split; [|reflexivity]. intros _. repeat split; eauto.
      * destruct (ToBoolean (get doc "valid")) eqn:Htrue; cbn [negb].
        -- split; [|reflexivity]. intros _. repeat split; eauto.
        -- split; [intros Hx; discriminate Hx|].
           intros (_ & _ & _ & [Hx|Hx]); discriminate Hx.
Qed.

Lemma prefix_app (word s : string) :
  String.prefix word s = true <-> exists post, s = word ++ post.
Proof.
  revert s. induction word as [|a word IH]; intros s.
  - destruct s; simpl; split; eauto.
  - destruct s as [|b s]; simpl.
    + split; [discriminate | intros [post Hx]; discriminate Hx].
    + destruct (Ascii.ascii_dec a b) as [->|Hne].
      * rewrite IH. split; intros [post Hx]; exists post.
        -- by rewrite Hx.
        -- by injection Hx.
      * split; [discriminate|]. intros [post Hx]. by injection Hx.
Qed.

Lemma includes_app (word s : string) :
  Admin.includes word s = true <-> exists pre post, s = pre ++ word ++ post.
Proof.
  induction s as [|c s IH]; cbn [Admin.includes].
  - rewrite orb_false_r, prefix_app. split.
    + intros [post Hx]. exists "", post. exact Hx.
    + intros (pre & post & Hx). destruct pre; [eauto|discriminate Hx].
  - rewrite orb_true_iff, prefix_app, IH. split.
    + intros [[post Hx]|(pre & post & Hx)].
      * exists "", post. exact Hx.
      * exists (String c pre), post. simpl. by rewrite Hx.
    + intros (pre & post & Hx). destruct pre as [|c' pre].
      * left. exists post. exact Hx.
      * right. exists pre, post. simpl in Hx. by injection Hx.
Qed.

(** X9: the test on [doc.result] finds the words anywhere in the string:
    [result] matches exactly when it contains [exception] or [corrupt] as a
    substring, in lower case, and then a response whose [ok] is not 0 is
    rejected as an invalid collection whatever [valid] says. *)
Theorem validateCollection_result_words (name : string) (doc : Document)
    (s : string) :
  (Admin.matches_exception_or_corrupt s = true
   <-> exists pre post,
        s = pre ++ "exception" ++ post \/ s = pre ++ "corrupt" ++ post)
  /\ (forall pre word post,
         word = "exception" \/ word = "corrupt" ->
         strict_eq_number (get doc "ok") (Finite 0) = false ->
         get doc "result" = JString (pre ++ word ++ post) ->
         Admin.validateCollection_handler name JNull doc
         = [done_error_null
              (JError "Error" ("Error: invalid collection " ++ name))])
  /\ Admin.matches_exception_or_corrupt "Corrupt index, Exception" = false.
Proof.
  assert (Hwords : Admin.matches_exception_or_corrupt s = true
                   <-> exists pre post,
                        s = pre ++ "exception" ++ post
                        \/ s = pre ++ "corrupt" ++ post).
  { unfold Admin.matches_exception_or_corrupt.
    rewrite orb_true_iff, !includes_app. split.
    - intros [(pre & post & Hx)|(pre & post & Hx)]; exists pre, post; auto.
    - intros (pre & post & [Hx|Hx]); [left|right]; eauto. }
  split; [exact Hwords|]. split; [|reflexivity].
  intros pre word post Hword Hok Hres.
  unfold Admin.validateCollection_handler, done_error_null.
  rewrite Hok, Hres.
  cbn [loose_eq_null negb andb Admin.constructor_is_not_String
         Admin.match_not_null].
  replace (Admin.matches_exception_or_corrupt (pre ++ word ++ post))
    with true; [reflexivity|].
  symmetry. unfold Admin.matches_exception_or_corrupt.
  apply orb_true_iff.
  destruct Hword as [->| ->]; [left|right]; apply includes_app; eauto.
Qed.

Lemma strict_eq_number_one (v : JSValue) :
  strict_eq_number v (Finite 1) = true
  <-> exists q, v = JNumber (Finite q) /\ (q == 1)%Q.
Proof.
  destruct v as [| |b|[|neg|q]|s|en em|o]; simpl;
    try (split; [discriminate | intros (q' & Hx & _); discriminate Hx]).
  rewrite Qeq_bool_iff. split.
  - intros Hq. eauto.
  - intros (q' & Hx & Hq). by injection Hx as ->.
Qed.

Section StatusCommands.
Variable toError : Document -> JSValue.

(** X10: [serverStatus] and [replSetGetStatus] report success, with the
    response document as the value, exactly when there is no error and
    [doc.ok] is the number 1.  An [ok] of [true] or ["1"] is a failure, and
    an [err] that is falsy without being [null] or [undefined] is replaced by
    [toError(doc)]. *)
Theorem status_commands_success (db : Server) :
  (Admin.serverStatus toError db
   = [Issued {[ "serverStatus" := num 1 ]};
      Called [JNull; JObject (db {[ "serverStatus" := num 1 ]}).2]]
   <-> loose_eq_null (db {[ "serverStatus" := num 1 ]}).1 = true
       /\ exists q,
           (db {[ "serverStatus" := num 1 ]}).2 !! "ok"
           = Some (JNumber (Finite q)) /\ (q == 1)%Q)
  /\ (Admin.replSetGetStatus toError db
      = [Issued {[ "replSetGetStatus" := num 1 ]};
         Called [JNull; JObject (db {[ "replSetGetStatus" := num 1 ]}).2]]
      <-> loose_eq_null (db {[ "replSetGetStatus" := num 1 ]}).1 = true
          /\ exists q,
              (db {[ "replSetGetStatus" := num 1 ]}).2 !! "ok"
              = Some (JNumber (Finite q)) /\ (q == 1)%Q)
  /\ (forall doc v,
         v = JBool true \/ v = JString "1" ->
         Admin.serverStatus_handler toError JNull (<["ok" := v]> doc)
         = [Called [toError (<["ok" := v]> doc); JBool false]])
  /\ (forall doc err,
         err = num 0 \/ err = JString "" \/ err = JBool false ->
         Admin.serverStatus_handler toError err doc
         = [Called [toError doc; JBool false]]).
Proof.
  assert (Hok : forall doc : Document,
             strict_eq_number (get doc "ok") (Finite 1) = true
             <-> exists q, doc !! "ok" = Some (JNumber (Finite q))
                           /\ (q == 1)%Q).
  { intros doc. rewrite strict_eq_number_one. unfold get.
    destruct (doc !! "ok") as [v|]; cbn [default from_option id].
    - split; intros (q & Hx & Hq); exists q; split; congruence.
    - split; intros (q & Hx & Hq); discriminate Hx. }
  assert (Hhandler : forall err doc,
             (if loose_eq_null err
                 && strict_eq_number (get doc "ok") (Finite 1)
              then [Called [JNull; JObject doc]]
              else if ToBoolean err then [Called [err; JBool false]]
                   else [Called [toError doc; JBool false]])
             = [Called [JNull; JObject doc]]
             <-> loose_eq_null err = true
                 /\ exists q, doc !! "ok" = Some (JNumber (Finite q))
                              /\ (q == 1)%Q).
  { intros err doc. rewrite <- Hok.
    destruct (loose_eq_null err); cbn [andb].
    - destruct (strict_eq_number (get doc "ok") (Finite 1)).
      + split; auto.
      + destruct (ToBoolean err);
          (split; [intros Hx; discriminate Hx | intros [_ Hx]; discriminate Hx]).
    - destruct (ToBoolean err);
        (split; [intros Hx; discriminate Hx | intros [Hx _]; discriminate Hx]). }
  split; [|split; [|split]].
  - unfold Admin.serverStatus, Admin.serverStatus_handler.
    destruct (db _) as [err doc]. cbn [fst snd].
    rewrite <- Hhandler. split; intros Hx.
    + by injection Hx.
    + by rewrite Hx.
  - unfold Admin.replSetGetStatus, Admin.replSetGetStatus_handler.
    destruct (db _) as [err doc]. cbn [fst snd].
    rewrite <- Hhandler. split; intros Hx.
    + by injection Hx.
    + by rewrite Hx.
  - intros doc v Hv. unfold Admin.serverStatus_handler, get.
    rewrite lookup_insert_eq. destruct Hv as [->| ->]; reflexivity.
  - intros doc err Herr. unfold Admin.serverStatus_handler.
    destruct Herr as [->|[->| ->]]; reflexivity.
Qed.

End StatusCommands.

Section ProfilingFailures.
Context `{HostConversions}.

(** X11: once the level is one of the three, what the server answers decides
    how [setProfilingLevel] fails: a transport error is passed on unchanged,
    with [null] as the result, and a response whose [ok] is not the number 1
    gives the fixed error [Error with profile command], the response
    document being dropped. *)
Theorem setProfilingLevel_failures (db options : JSValue) (server : Server)
    (level : string) :
  level = "off" \/ level = "slow_only" \/ level = "all" ->
  let this := SetProfilingLevelOperation.new db (JString level) options in
  let command : Document :=
    {[ "profile" := SetProfilingLevelOperation.profile this ]} in
  (loose_eq_null (server command).1 = false ->
   SetProfilingLevelOperation.execute this server
   = [Issued command; Called [(server command).1; JNull]])
  /\ (loose_eq_null (server command).1 = true ->
      strict_eq_number (get (server command).2 "ok") (Finite 1) = false ->
      SetProfilingLevelOperation.execute this server
      = [Issued command;
         Called [JError "Error" "Error with profile command"; JNull]]).
Proof.
  intros Hlevel this command.
  assert (Hhas : SetProfilingLevelOperation.levelValues_has (JString level)
                 = true).
  { apply levelValues_has_spec. destruct Hlevel as [->|[->| ->]]; auto. }
  unfold SetProfilingLevelOperation.execute, executeCommand.
  replace (SetProfilingLevelOperation.level this) with (JString level)
    by reflexivity.
  rewrite Hhas. cbn [negb]. fold command.
  destruct (server command) as [err doc]. cbn [fst snd].
  split.
  - intros ->. reflexivity.
  - intros -> ->. reflexivity.
Qed.

End ProfilingFailures.

(** A server that fails at the transport level, then one that answers
    [{ok: 0}]. *)
Lemma setProfilingLevel_failures_witness :
  @SetProfilingLevelOperation.execute plain_host
    (SetProfilingLevelOperation.new JUndefined (JString "slow_only") JUndefined)
    (fun _ => (JError "MongoError" "connection closed", ∅))
  = [Issued {[ "profile" := num 1 ]};
     Called [JError "MongoError" "connection closed"; JNull]]
  /\ @SetProfilingLevelOperation.execute plain_host
       (SetProfilingLevelOperation.new JUndefined (JString "slow_only")
          JUndefined)
       (fun _ => (JNull, {[ "ok" := num 0 ]}))
     = [Issued {[ "profile" := num 1 ]};
        Called [JError "Error" "Error with profile command"; JNull]].
Proof.
  split.
  - apply (@setProfilingLevel_failures plain_host JUndefined JUndefined
             (fun _ => (JError "MongoError" "connection closed", ∅))
             "slow_only"); auto.
  - apply (@setProfilingLevel_failures plain_host JUndefined JUndefined
             (fun _ => (JNull, {[ "ok" := num 0 ]})) "slow_only"); auto.
Defined.

(** ** Arguments of the admin methods *)

Lemma pop_callback_function (args : list Argument) (name : string) :
  pop_callback (args ++ [Function name]) = (args, Function name).
Proof.
  unfold pop_callback. rewrite last_snoc. by rewrite removelast_last.
Qed.

Lemma pop_callback_value (args : list Argument) (v : JSValue) :
  pop_callback (args ++ [Value v]) = ((args ++ [Value v])%list, Value JUndefined).
Proof. unfold pop_callback. by rewrite last_snoc. Qed.

(** X12: the admin methods find the callback in the last argument and only
    there.  [command(cmd, ..., callback)] passes the first of the arguments
    in between as options, or [{}] when there is none; without a trailing
    function the callback is [undefined], and a function that is the only
    argument is taken for the command.  [ping] passes the command
    [{ping: 1}] and the callback and drops every other argument.
    [validateCollection] replaces falsy options by [{}]. *)
Theorem admin_trailing_callback :
  (forall cmd between name,
      Admin.command (cmd :: between ++ [Function name])
      = [cmd; shift_options between; Function name])
  /\ (forall cmd name,
         Admin.command [cmd; Function name]
         = Admin.command [cmd; Value (JObject ∅); Function name])
  /\ (forall cmd between v,
         Admin.command (cmd :: between ++ [Value v])
         = [cmd; shift_options (between ++ [Value v]); Value JUndefined])
  /\ (forall name,
         Admin.command [Function name]
         = [Function name; Value (JObject ∅); Value JUndefined])
  /\ (forall others name,
         Admin.ping (others ++ [Function name])
         = [Value (JObject {[ "ping" := num 1 ]}); Function name])
  /\ (forall others v,
         Admin.ping (others ++ [Value v])
         = [Value (JObject {[ "ping" := num 1 ]}); Value JUndefined])
  /\ (forall collectionName options name,
         truthy options = false ->
         Admin.validateCollection_arguments
           [collectionName; options; Function name]
         = [collectionName; Value (JObject ∅); Function name])
  /\ (forall collectionName name,
         Admin.validateCollection_arguments [collectionName; Function name]
         = [collectionName; Value (JObject ∅); Function name]).
Proof.
  split; [|split; [|split; [|split; [|split; [|split; [|split]]]]]].
  - intros cmd between name. unfold Admin.command. cbn [drop]; rewrite ?drop_0.
    by rewrite pop_callback_function.
  - reflexivity.
  - intros cmd between v. unfold Admin.command. cbn [drop]; rewrite ?drop_0.
    by rewrite pop_callback_value.
  - reflexivity.
  - intros others name. unfold Admin.ping. cbn [drop]; rewrite ?drop_0.
    by rewrite pop_callback_function.
  - intros others v. unfold Admin.ping. cbn [drop]; rewrite ?drop_0.
    by rewrite pop_callback_value.
  - intros collectionName options name Hfalsy.
    unfold Admin.validateCollection_arguments. cbn [drop]; rewrite ?drop_0.
    rewrite (pop_callback_function [options] name
             : pop_callback [options; Function name] = _).
    cbn [shift_options].
    unfold or_empty. by rewrite Hfalsy.
  - reflexivity.
Qed.

Section UserCommands.
Context `{HostConversions}.
Variable enumerableProperties : Argument -> Document.

(** X13: [addUser] and [removeUser] always send [dbName: 'admin'], also over
    a [dbName] of the caller's, and send every other option of the caller's
    options object as it is: the database's write concern is never added.
    Without options, or with falsy ones, the options sent are exactly
    [{dbName: 'admin'}]. *)
Theorem user_commands_target_admin (db : Document) :
  (forall username password (o : Document) rest,
      rest = [] \/ (exists name, rest = [Function name]) ->
      exists callback,
        Admin.addUser enumerableProperties
          (username :: password :: Value (JObject o) :: rest) db
        = [username; password;
           Value (JObject (<["dbName" := JString "admin"]> o)); callback]
        /\ Admin.removeUser enumerableProperties
             (username :: Value (JObject o) :: rest) db
           = [username;
              Value (JObject (<["dbName" := JString "admin"]> o)); callback])
  /\ (forall username password name,
         Admin.addUser enumerableProperties
           [username; password; Function name] db
         = [username; password;
            Value (JObject {[ "dbName" := JString "admin" ]}); Function name]
         /\ Admin.removeUser enumerableProperties [username; Function name] db
            = [username; Value (JObject {[ "dbName" := JString "admin" ]});
               Function name])
  /\ (forall username password options name,
         truthy options = false ->
         Admin.addUser enumerableProperties
           [username; password; options; Function name] db
         = [username; password;
            Value (JObject {[ "dbName" := JString "admin" ]}); Function name])
  /\ (forall arguments,
         exists o callback,
           Admin.addUser enumerableProperties arguments db
           = [parameter arguments 0; parameter arguments 1;
              Value (JObject o); callback]
           /\ o !! "dbName" = Some (JString "admin")).
Proof.
  split; [|split; [|split]].
  - intros username password o rest Hrest.
    unfold Admin.addUser, Admin.removeUser, parameter. cbn [drop]; rewrite ?drop_0.
    destruct Hrest as [->|[name ->]].
    + exists (Value JUndefined).
      cbn [pop_callback last shift_options or_empty truthy ToBoolean
             Admin.writeConcern_of].
      rewrite writeConcern_returns_copy. split; reflexivity.
    + exists (Function name).
      rewrite (pop_callback_function [Value (JObject o)] name
               : pop_callback [Value (JObject o); Function name] = _).
      cbn [shift_options or_empty truthy ToBoolean Admin.writeConcern_of].
      rewrite writeConcern_returns_copy. split; reflexivity.
  - intros username password name.
    unfold Admin.addUser, Admin.removeUser, parameter. cbn [drop]; rewrite ?drop_0.
    rewrite (pop_callback_function [] name
             : pop_callback [Function name] = _).
    cbn [shift_options or_empty truthy ToBoolean Admin.writeConcern_of].
    rewrite writeConcern_returns_copy. split; reflexivity.
  - intros username password options name Hfalsy.
    unfold Admin.addUser, parameter. cbn [drop]; rewrite ?drop_0.
    rewrite (pop_callback_function [options] name
             : pop_callback [options; Function name] = _).
    cbn [shift_options].
    unfold or_empty. rewrite Hfalsy. cbn [Admin.writeConcern_of].
    rewrite writeConcern_returns_copy. reflexivity.
  - intros arguments. unfold Admin.addUser.
    destruct (pop_callback (drop 2 arguments)) as [args callback].
    eexists. eexists. split; [reflexivity|]. apply lookup_insert_eq.
Qed.

(** X14: [listDatabases(callback)] runs [{listDatabases: 1}] with empty
    options at once.  Otherwise the caller's options are merged into the
    command and the options passed on are always [{}]; a truthy [nameOnly]
    is sent as a number, [true] as 1, and a falsy one is sent as the caller
    gave it, [false] staying [false]. *)
Theorem listDatabases_command :
  (forall name callback,
      Admin.listDatabases enumerableProperties (Function name) callback
      = Admin.Direct [Value (JObject {[ "listDatabases" := num 1 ]});
                Value (JObject ∅); Function name])
  /\ (forall callback v,
         v = JUndefined \/ v = JNull ->
         Admin.listDatabases enumerableProperties (Value v) callback
         = Admin.ThroughExecuteOperation
             [Value (JObject {[ "listDatabases" := num 1 ]});
              Value (JObject ∅); callback])
  /\ (forall (o : Document) callback,
         ToBoolean (get o "nameOnly") = true ->
         Admin.listDatabases enumerableProperties (Value (JObject o)) callback
         = Admin.ThroughExecuteOperation
             [Value (JObject
                       (<["nameOnly" := JNumber (ToNumber (get o "nameOnly"))]>
                          (o ∪ {[ "listDatabases" := num 1 ]})));
              Value (JObject ∅); callback])
  /\ (forall (o : Document) callback,
         ToBoolean (get o "nameOnly") = false ->
         Admin.listDatabases enumerableProperties (Value (JObject o)) callback
         = Admin.ThroughExecuteOperation
             [Value (JObject (o ∪ {[ "listDatabases" := num 1 ]}));
              Value (JObject ∅); callback])
  /\ (forall (o : Document) callback,
         Admin.listDatabases enumerableProperties
           (Value (JObject (<["nameOnly" := JBool true]> o))) callback
         = Admin.ThroughExecuteOperation
             [Value (JObject (<["nameOnly" := num 1]>
                                (o ∪ {[ "listDatabases" := num 1 ]})));
              Value (JObject ∅); callback]).
Proof.
  assert (HnameOnly : forall o : Document,
             get (o ∪ {[ "listDatabases" := num 1 ]}) "nameOnly"
             = get o "nameOnly").
  { intros o. unfold get. rewrite lookup_union.
    rewrite lookup_singleton_ne by discriminate.
    destruct (o !! "nameOnly"); reflexivity. }
  split; [|split; [|split; [|split]]].
  - reflexivity.
  - intros callback v [->| ->]; reflexivity.
  - intros o callback Htrue. unfold Admin.listDatabases.
    cbn [is_function Admin.assign]. by rewrite HnameOnly, Htrue.
  - intros o callback Hfalse. unfold Admin.listDatabases.
    cbn [is_function Admin.assign]. by rewrite HnameOnly, Hfalse.
  - intros o callback. unfold Admin.listDatabases.
    cbn [is_function Admin.assign]. rewrite HnameOnly.
    unfold get at 1 2. rewrite lookup_insert_eq.
    cbn [default from_option id ToBoolean ToNumber].
    do 4 f_equal. apply map_eq. intros key.
    destruct (decide (key = "nameOnly")) as [->|Hne].
    + by rewrite !lookup_insert_eq.
    + rewrite !lookup_insert_ne by done.
      rewrite !lookup_union. by rewrite lookup_insert_ne.
Qed.

End UserCommands.
